(** * A shallow embedding of app.py (Flask facade over yt-dlp)

    Python strings are sequences of code points, modelled as [list Z].
    JSON values and Python dicts coming from JSON are the [json] type below.
    The handlers run in a small state-and-exception monad over a model of
    the file system; every exception raised is also recorded, so that
    "raised but swallowed" can be stated. *)

From Stdlib Require Import List ZArith String Ascii Bool Lia.
Import ListNotations.
Open Scope Z_scope.
Set Warnings "-register-all".

(** ** Python strings *)

Definition py_string : Type := list Z.

(** ASCII literal as a Python string. *)
Definition u (s : string) : py_string :=
  map (fun a => Z.of_nat (nat_of_ascii a)) (list_ascii_of_string s).

Fixpoint str_eqb (a b : py_string) : bool :=
  match a, b with
  | [], [] => true
  | x :: a', y :: b' => (x =? y) && str_eqb a' b'
  | _, _ => false
  end.

Definition str_in (s : py_string) (l : list py_string) : bool :=
  existsb (str_eqb s) l.

(** [s.endswith(suf)] *)
Definition ends_with (s suf : py_string) : bool :=
  (Nat.leb (List.length suf) (List.length s)) &&
  str_eqb (skipn (List.length s - List.length suf) s) suf.

(** [str(n)] for an int. *)
Fixpoint digits_aux (fuel : nat) (n : Z) (acc : py_string) : py_string :=
  match fuel with
  | O => acc
  | S f =>
      let acc' := (48 + n mod 10) :: acc in
      if n <? 10 then acc' else digits_aux f (n / 10) acc'
  end.

Definition py_str_int (n : Z) : py_string :=
  if n <? 0 then 45 :: digits_aux 64 (- n) [] else digits_aux 64 n [].

(** [str.lower], per code point: ASCII and Latin-1 upper-case letters, and
    the code points whose lower case is (or begins with) an ASCII letter:
    U+0130 (-> "i" U+0307) and U+212A KELVIN SIGN (-> "k"); U+212B ANGSTROM
    SIGN lowers to U+00E5.  Other scripts are left unchanged in this model. *)
Definition lower_char (c : Z) : py_string :=
  if (65 <=? c) && (c <=? 90) then [c + 32]
  else if (192 <=? c) && (c <=? 222) && negb (c =? 215) then [c + 32]
  else if c =? 304 then [105; 775]
  else if c =? 8490 then [107]
  else if c =? 8491 then [229]
  else [c].

Definition py_lower (s : py_string) : py_string := flat_map lower_char s.

(** Python's [str.isspace] code points. *)
Definition is_space (c : Z) : bool :=
  ((9 <=? c) && (c <=? 13)) || ((28 <=? c) && (c <=? 32)) || (c =? 133) ||
  (c =? 160) || (c =? 5760) || ((8192 <=? c) && (c <=? 8202)) ||
  (c =? 8232) || (c =? 8233) || (c =? 8239) || (c =? 8287) || (c =? 12288).

Fixpoint lstrip_by (p : Z -> bool) (s : py_string) : py_string :=
  match s with
  | c :: s' => if p c then lstrip_by p s' else s
  | [] => []
  end.

(** [s.strip(chars)]: both ends. *)
Definition strip_by (p : Z -> bool) (s : py_string) : py_string :=
  rev (lstrip_by p (rev (lstrip_by p s))).

(** [s.split()] with no argument: runs of whitespace separate, no empty
    fields. *)
Fixpoint split_ws_aux (s : py_string) (cur : py_string) (acc : list py_string)
  : list py_string :=
  match s with
  | [] => rev (if cur then acc else rev cur :: acc)
  | c :: s' =>
      if is_space c
      then split_ws_aux s' [] (if cur then acc else rev cur :: acc)
      else split_ws_aux s' (c :: cur) acc
  end.

Definition split_ws (s : py_string) : list py_string := split_ws_aux s [] [].

(** [sep.join(l)] *)
Fixpoint join_with (sep : py_string) (l : list py_string) : py_string :=
  match l with
  | [] => []
  | [x] => x
  | x :: l' => x ++ sep ++ join_with sep l'
  end.

(** ** JSON values and Python values built from them *)

Inductive json : Type :=
| JNull
| JBool (b : bool)
| JNum (n : Z)
| JStr (s : py_string)
| JArr (l : list json)
| JObj (kv : list (py_string * json)).

(** Python truthiness ([bool(v)]). *)
Definition truthy (v : json) : bool :=
  match v with
  | JNull => false
  | JBool b => b
  | JNum n => negb (n =? 0)
  | JStr s => negb (Nat.eqb (List.length s) 0)
  | JArr l => negb (Nat.eqb (List.length l) 0)
  | JObj kv => negb (Nat.eqb (List.length kv) 0)
  end.

(** [d.get(k)] on a dict decoded from JSON: the last binding of a
    duplicated key wins, as in [json.loads]. *)
Definition obj_get (k : py_string) (kv : list (py_string * json)) : option json :=
  fold_left (fun acc '(k', v) => if str_eqb k k' then Some v else acc) kv None.

(** ** Format catalog: [DESIRED_HEIGHTS] and [build_format_options] *)

Definition DESIRED_HEIGHTS : list Z := [1080; 720; 480; 360; 240; 144].

Record FormatOption := {
  fo_id : py_string;
  fo_label : py_string;
  fo_ext : py_string;
  fo_type : py_string
}.

Definition video_option (h : Z) : FormatOption :=
  let selector := u "bestvideo[height<=" ++ py_str_int h ++ u "]+bestaudio/best[height<="
                  ++ py_str_int h ++ u "]" in
  {| fo_id := selector; fo_label := py_str_int h ++ u "p";
     fo_ext := u "mp4"; fo_type := u "video" |}.

Definition audio_option : FormatOption :=
  {| fo_id := u "bestaudio"; fo_label := u "MP3 (audio only)";
     fo_ext := u "mp3"; fo_type := u "audio" |}.

(** The order-preserving de-duplication loop on ["id"]. *)
Fixpoint dedup_ids (seen : list py_string) (l : list FormatOption) : list FormatOption :=
  match l with
  | [] => []
  | f :: l' =>
      if str_in (fo_id f) seen then dedup_ids seen l'
      else f :: dedup_ids (fo_id f :: seen) l'
  end.

(** [build_format_options(info)]: [info] is not consulted. *)
Definition build_format_options (info : json) : list FormatOption :=
  let formats := map video_option DESIRED_HEIGHTS ++ [audio_option] in
  dedup_ids [] formats.

Definition format_to_json (f : FormatOption) : json :=
  JObj [(u "id", JStr (fo_id f)); (u "label", JStr (fo_label f));
        (u "ext", JStr (fo_ext f)); (u "type", JStr (fo_type f))].

(** ** [clean_filename] *)

(** The regex character class of [clean_filename]: backslash, slash,
    star, question mark, colon, double quote, less, greater, bar. *)
Definition unsafe_char (c : Z) : bool :=
  existsb (Z.eqb c) [92; 47; 42; 63; 58; 34; 60; 62; 124].

Definition clean_filename (s : py_string) : py_string :=
  let s1 := filter (fun c => negb (unsafe_char c)) s in   (* re.sub(class, empty, s) *)
  let s2 := strip_by is_space s1 in                        (* s.strip() *)
  firstn 200 s2.                                           (* s[:200] *)

(** ** werkzeug's [secure_filename] (library code called by app.py)

    [unicodedata.normalize("NFKD", ...)] needs the Unicode decomposition
    table; [nfkd_char] is an excerpt of it (UnicodeData.txt, full
    compatibility decompositions), and code points outside the excerpt are
    treated as having no decomposition.  NFKD's canonical reordering only
    permutes combining marks, which are non-ASCII and dropped by the next
    step, so it is left out. *)
Definition roman_upper : list py_string :=
  map u ["I"; "II"; "III"; "IV"; "V"; "VI"; "VII"; "VIII"; "IX"; "X"; "XI"; "XII";
         "L"; "C"; "D"; "M"]%string.

Definition roman_lower : list py_string := map py_lower roman_upper.

Definition ligatures : list py_string :=
  map u ["ff"; "fi"; "fl"; "ffi"; "ffl"; "st"; "st"]%string.

Definition latin1_decomp (c : Z) : option py_string :=
  match c with
  | 160 => Some [32] | 170 => Some [97] | 178 => Some [50] | 179 => Some [51]
  | 185 => Some [49] | 186 => Some [111] | 188 => Some [49; 8260; 52]
  | 192 => Some [65; 768] | 193 => Some [65; 769] | 194 => Some [65; 770]
  | 195 => Some [65; 771] | 196 => Some [65; 776] | 197 => Some [65; 778]
  | 199 => Some [67; 807] | 200 => Some [69; 768] | 201 => Some [69; 769]
  | 202 => Some [69; 770] | 203 => Some [69; 776] | 209 => Some [78; 771]
  | 224 => Some [97; 768] | 225 => Some [97; 769] | 226 => Some [97; 770]
  | 227 => Some [97; 771] | 228 => Some [97; 776] | 229 => Some [97; 778]
  | 231 => Some [99; 807] | 232 => Some [101; 768] | 233 => Some [101; 769]
  | 234 => Some [101; 770] | 235 => Some [101; 776] | 241 => Some [110; 771]
  | 252 => Some [117; 776]
  | _ => None
  end.

Definition nfkd_char (c : Z) : py_string :=
  match latin1_decomp c with
  | Some d => d
  | None =>
      if c =? 8482 then u "TM"
      else if (8544 <=? c) && (c <=? 8559) then nth (Z.to_nat (c - 8544)) roman_upper [c]
      else if (8560 <=? c) && (c <=? 8575) then nth (Z.to_nat (c - 8560)) roman_lower [c]
      else if (64256 <=? c) && (c <=? 64262) then nth (Z.to_nat (c - 64256)) ligatures [c]
      else [c]
  end.

Definition nfkd (s : py_string) : py_string := flat_map nfkd_char s.

(** [_filename_ascii_strip_re] is the class of characters outside
    A-Z, a-z, 0-9, underscore, dot and dash; the kept ones are: *)
Definition filename_ascii_char (c : Z) : bool :=
  ((65 <=? c) && (c <=? 90)) || ((97 <=? c) && (c <=? 122)) ||
  ((48 <=? c) && (c <=? 57)) || (c =? 95) || (c =? 46) || (c =? 45).

(** On a POSIX host: [os.sep] is a slash, [os.path.altsep] is None, and the
    Windows device-name branch is not taken. *)
Definition secure_filename (filename : py_string) : py_string :=
  let f1 := nfkd filename in                                  (* normalize NFKD *)
  let f2 := filter (fun c => c <? 128) f1 in                  (* encode to ascii, errors ignored *)
  let f3 := map (fun c => if c =? 47 then 32 else c) f2 in    (* replace os.sep by a space *)
  let f4 := join_with (u "_") (split_ws f3) in                (* join the split words with underscores *)
  let f5 := filter filename_ascii_char f4 in                  (* drop the stripped class *)
  strip_by (fun c => (c =? 46) || (c =? 95)) f5.              (* strip dots and underscores *)

(** ** Exceptions and the handler monad *)

Record exn := mkexn { exn_type : py_string; exn_msg : py_string }.

(** [str(e)] *)
Definition exn_str (e : exn) : py_string := exn_msg e.

Definition exn_eqb (e1 e2 : exn) : bool :=
  str_eqb (exn_type e1) (exn_type e2) && str_eqb (exn_msg e1) (exn_msg e2).

(** The file system: directories and regular files by absolute path; the
    counter stands for [tempfile]'s name generator. *)
Record FS := { fs_dirs : list py_string; fs_files : list py_string; fs_counter : Z }.

Record St := { st_fs : FS; st_raised : list exn }.

Inductive res (A : Type) : Type :=
| ROk (a : A)
| RExc (e : exn).
Arguments ROk {A} a.
Arguments RExc {A} e.

Definition M (A : Type) : Type := St -> res A * St.

Definition ret {A} (a : A) : M A := fun st => (ROk a, st).

Definition bind {A B} (m : M A) (k : A -> M B) : M B :=
  fun st => match m st with
            | (ROk a, st') => k a st'
            | (RExc e, st') => (RExc e, st')
            end.

Notation "'let*' x ':=' m 'in' k" := (bind m (fun x => k))
  (at level 200, x name, m at level 100, k at level 200).

(** [raise e]: the exception is recorded as raised. *)
Definition raise {A} (e : exn) : M A :=
  fun st => (RExc e, {| st_fs := st_fs st; st_raised := st_raised st ++ [e] |}).

(** [try: m except Exception as e: h(e)] *)
Definition try_except {A} (m : M A) (h : exn -> M A) : M A :=
  fun st => match m st with
            | (ROk a, st') => (ROk a, st')
            | (RExc e, st') => h e st'
            end.

(** [try: m finally: fin]: an exception of [fin] replaces the outcome of
    [m]; otherwise [m]'s outcome (value or exception) stands. *)
Definition try_finally {A} (m : M A) (fin : M unit) : M A :=
  fun st => match m st with
            | (r, st') => match fin st' with
                          | (ROk _, st'') => (r, st'')
                          | (RExc e, st'') => (RExc e, st'')
                          end
            end.

Definition get_fs : M FS := fun st => (ROk (st_fs st), st).

Definition put_fs (fs : FS) : M unit :=
  fun st => (ROk tt, {| st_fs := fs; st_raised := st_raised st |}).

(** ** File system operations (posixpath, os, shutil, tempfile) *)

Definition is_prefix (p s : py_string) : bool :=
  str_eqb (firstn (List.length p) s) p.

Definition path_isdir (fs : FS) (p : py_string) : bool := str_in p (fs_dirs fs).
Definition path_isfile (fs : FS) (p : py_string) : bool := str_in p (fs_files fs).

(** [os.path.exists] *)
Definition path_exists (fs : FS) (p : py_string) : bool :=
  path_isdir fs p || path_isfile fs p.

(** [os.path.join(a, b)] *)
Definition path_join (a b : py_string) : py_string :=
  match b with
  | 47 :: _ => b
  | _ => match rev a with
         | [] | 47 :: _ => a ++ b
         | _ => a ++ [47] ++ b
         end
  end.

(** [s.rfind(c)]: index of the last occurrence, or -1. *)
Fixpoint rfind_aux (s : py_string) (c i acc : Z) : Z :=
  match s with
  | [] => acc
  | x :: s' => rfind_aux s' c (i + 1) (if x =? c then i else acc)
  end.

Definition rfind (s : py_string) (c : Z) : Z := rfind_aux s c 0 (-1).

(** [os.path.splitext(p)[0]]: genericpath's [_splitext] with separator
    slash and extension separator dot; leading dots of the last component
    do not start an extension. *)
Definition splitext_root (p : py_string) : py_string :=
  let sepIndex := rfind p 47 in
  let dotIndex := rfind p 46 in
  if sepIndex <? dotIndex then
    let between := firstn (Z.to_nat (dotIndex - (sepIndex + 1)))
                          (skipn (Z.to_nat (sepIndex + 1)) p) in
    if existsb (fun c => negb (c =? 46)) between
    then firstn (Z.to_nat dotIndex) p
    else p
  else p.

(** Name of [p] inside directory [d], if [p] is an entry directly in [d]. *)
Definition child_name (d p : py_string) : option py_string :=
  let pre := d ++ [47] in
  if is_prefix pre p then
    match skipn (List.length pre) p with
    | [] => None
    | name => if existsb (Z.eqb 47) name then None else Some name
    end
  else None.

(** Names of the entries directly in [d]. *)
Definition dir_entries (fs : FS) (d : py_string) : list py_string :=
  flat_map (fun p => match child_name d p with Some n => [n] | None => [] end)
           (fs_dirs fs ++ fs_files fs).

(** [os.listdir(d)] *)
Definition listdir (d : py_string) : M (list py_string) :=
  let* fs := get_fs in
  if path_isdir fs d then ret (dir_entries fs d)
  else raise (mkexn (u "FileNotFoundError") d).

(** [tempfile.mkdtemp(prefix="ydl_")]: candidate names are tried until one
    is unused (the name generator is modelled by a counter). *)
Fixpoint fresh_from (fs : FS) (k : Z) (fuel : nat) : option py_string :=
  match fuel with
  | O => None
  | S f =>
      let p := u "/tmp/ydl_" ++ py_str_int k in
      if path_exists fs p then fresh_from fs (k + 1) f else Some p
  end.

Definition mkdtemp_name (fs : FS) : option py_string :=
  fresh_from fs (fs_counter fs)
             (S (List.length (fs_dirs fs) + List.length (fs_files fs))).

Definition mkdtemp : M py_string :=
  let* fs := get_fs in
  match mkdtemp_name fs with
  | Some p =>
      let* _ := put_fs {| fs_dirs := p :: fs_dirs fs; fs_files := fs_files fs;
                          fs_counter := fs_counter fs + 1 |} in
      ret p
  | None => raise (mkexn (u "FileExistsError") (u "No usable temporary directory name found"))
  end.

Definition remove_tree (d : py_string) (fs : FS) : FS :=
  {| fs_dirs := filter (fun p => negb (str_eqb p d || is_prefix (d ++ [47]) p)) (fs_dirs fs);
     fs_files := filter (fun p => negb (is_prefix (d ++ [47]) p)) (fs_files fs);
     fs_counter := fs_counter fs |}.

(** [shutil.rmtree(d)]; [fails] says when the host refuses the removal
    (permissions, files held open, ...). *)
Definition rmtree (fails : FS -> py_string -> bool) (d : py_string) : M unit :=
  let* fs := get_fs in
  if path_isdir fs d then
    if fails fs d then raise (mkexn (u "OSError") d)
    else put_fs (remove_tree d fs)
  else if path_isfile fs d then raise (mkexn (u "NotADirectoryError") d)
  else raise (mkexn (u "FileNotFoundError") d).

(** ** The external collaborators: yt-dlp and the host *)

Inductive Postprocessor : Type :=
| FFmpegExtractAudio (preferredcodec preferredquality : py_string)
| FFmpegVideoConvertor (preferedformat : py_string).

(** The [ydl_opts] dict of [download]. *)
Record YdlOpts := {
  o_format : py_string;
  o_outtmpl : py_string;
  o_merge_output_format : py_string;
  o_ffmpeg_location : py_string;
  o_postprocessors : list Postprocessor;
  o_noplaylist : bool;
  o_quiet : bool;
  o_no_warnings : bool
}.

Record Env := {
  (** [FFMPEG_LOCATION = os.environ.get("FFMPEG_PATH", "ffmpeg")] *)
  env_ffmpeg_location : py_string;
  (** [extract_info(url, download=False)] with quiet, skip_download and
      no_warnings set: metadata or the exception raised *)
  ydl_info : json -> sum exn json;
  (** [extract_info(url, download=True)]: may write files before it
      returns or raises *)
  ydl_download : YdlOpts -> py_string -> FS -> sum exn json * FS;
  (** [ydl.prepare_filename(info)] *)
  ydl_prepare_filename : YdlOpts -> json -> sum exn py_string;
  (** when [shutil.rmtree] fails on an existing directory *)
  os_rmtree_fails : FS -> py_string -> bool
}.

Definition lift_sum {A} (r : sum exn A) : M A :=
  match r with
  | inl e => raise e
  | inr a => ret a
  end.

Definition call_download (env : Env) (opts : YdlOpts) (url : py_string) : M json :=
  fun st =>
    let '(r, fs') := ydl_download env opts url (st_fs st) in
    lift_sum r {| st_fs := fs'; st_raised := st_raised st |}.

(** ** Requests and responses *)

(** What [request.get_json(silent=True)] sees. *)
Inductive Body : Type :=
| BodyNone                 (* no body, or not a JSON mimetype *)
| BodyMalformed            (* JSON mimetype, body fails to decode *)
| BodyJson (j : json).     (* decoded body *)

Record Request := {
  rq_body : Body;
  rq_args : list (py_string * py_string)   (* query string, in order *)
}.

(** [request.args.get(k)]: the first value of [k]. *)
Fixpoint args_get (k : py_string) (args : list (py_string * py_string)) : option py_string :=
  match args with
  | [] => None
  | (k', v) :: args' => if str_eqb k k' then Some v else args_get k args'
  end.

Inductive response : Type :=
| RJson (status : Z) (body : json)
| RFile (status : Z) (path : py_string) (download_name : py_string) (mimetype : py_string).

(** [jsonify({"error": msg}), status] *)
Definition json_error (msg : py_string) (status : Z) : response :=
  RJson status (JObj [(u "error", JStr msg)]).

(** What Flask answers: a response, or an exception escaping the view,
    which Flask turns into a 500 page. *)
Inductive outcome : Type :=
| Resp (r : response)
| Unhandled (e : exn).

Definition status_of (o : outcome) : Z :=
  match o with
  | Resp (RJson s _) => s
  | Resp (RFile s _ _ _) => s
  | Unhandled _ => 500
  end.

Definition run (h : M response) (fs : FS) : outcome * St :=
  let '(r, st) := h {| st_fs := fs; st_raised := [] |} in
  (match r with ROk x => Resp x | RExc e => Unhandled e end, st).

(** ** Python-level helpers of the handlers *)

Definition py_type_name (v : json) : py_string :=
  match v with
  | JNull => u "NoneType" | JBool _ => u "bool" | JNum _ => u "int"
  | JStr _ => u "str" | JArr _ => u "list" | JObj _ => u "dict"
  end.

(** [d.get(k)] on a dict, [None] read as [JNull]. *)
Definition obj_lookup (k : py_string) (kv : list (py_string * json)) : json :=
  match obj_get k kv with Some v => v | None => JNull end.

(** [d.get(k)]; a non-dict has no [get]. *)
Definition dict_get (d : json) (k : py_string) : M json :=
  match d with
  | JObj kv => ret (obj_lookup k kv)
  | _ => raise (mkexn (u "AttributeError")
                      (u "'" ++ py_type_name d ++ u "' object has no attribute 'get'"))
  end.

Definition json_decode_error : exn :=
  mkexn (u "JSONDecodeError") (u "Expecting value: line 1 column 1 (char 0)").

(** [request.get_json(silent=True)]: a decoding error is caught and
    [None] returned. *)
Definition get_json_silent (b : Body) : M (option json) :=
  match b with
  | BodyNone => ret None
  | BodyMalformed => try_except (raise json_decode_error) (fun _ => ret None)
  | BodyJson j => ret (Some j)
  end.

(** ** [fetch_info] *)

(** [data = request.get_json(silent=True) or {}] and
    [url = data.get("url") or request.args.get("url")]. *)
Definition request_url (rq : Request) : M json :=
  let* parsed := get_json_silent (rq_body rq) in
  let data := match parsed with
              | Some j => if truthy j then j else JObj []
              | None => JObj []
              end in
  let* v := dict_get data (u "url") in
  ret (if truthy v then v
       else match args_get (u "url") (rq_args rq) with
            | Some s => JStr s
            | None => JNull
            end).

Definition fetch_info (env : Env) (rq : Request) : M response :=
  let* url := request_url rq in
  if negb (truthy url) then ret (json_error (u "Missing 'url' parameter") 400)
  else
    let* r := try_except
                (let* info := lift_sum (ydl_info env url) in ret (inr info))
                (fun e => ret (inl (json_error (u "Failed to extract info: " ++ exn_str e) 500))) in
    match r with
    | inl resp => ret resp
    | inr info =>
        let formats := build_format_options info in
        let* title := dict_get info (u "title") in
        let* uploader := dict_get info (u "uploader") in
        let* duration := dict_get info (u "duration") in
        let* thumbnail := dict_get info (u "thumbnail") in
        let* webpage_url := dict_get info (u "webpage_url") in
        ret (RJson 200 (JObj [(u "title", title); (u "uploader", uploader);
                              (u "duration", duration); (u "thumbnail", thumbnail);
                              (u "webpage_url", webpage_url);
                              (u "formats", JArr (map format_to_json formats))]))
    end.

(** ** [download] *)

(** [request.args.get("audio_only", default empty).lower() in ("1", "true", "yes")] *)
Definition audio_only_flag (args : list (py_string * py_string)) : bool :=
  let v := match args_get (u "audio_only") args with Some v => v | None => [] end in
  str_in (py_lower v) [u "1"; u "true"; u "yes"].

(** [want_mp3 = audio_only_flag or (format_id == "bestaudio")] *)
Definition want_mp3 (audio_only : bool) (format_id : py_string) : bool :=
  audio_only || str_eqb format_id (u "bestaudio").

(** The [ydl_opts] and [output_ext] chosen by the [want_mp3] branch. *)
Definition download_options (env : Env) (format_id outtmpl : py_string) (want_mp3 : bool)
  : YdlOpts * py_string :=
  if want_mp3 then
    ({| o_format := u "bestaudio"; o_outtmpl := outtmpl; o_merge_output_format := u "mp4";
        o_ffmpeg_location := env_ffmpeg_location env;
        o_postprocessors := [FFmpegExtractAudio (u "mp3") (u "192")];
        o_noplaylist := true; o_quiet := true; o_no_warnings := true |}, u "mp3")
  else
    ({| o_format := format_id; o_outtmpl := outtmpl; o_merge_output_format := u "mp4";
        o_ffmpeg_location := env_ffmpeg_location env;
        o_postprocessors := [FFmpegVideoConvertor (u "mp4")];
        o_noplaylist := true; o_quiet := true; o_no_warnings := true |}, u "mp4").

(** The extension fix-up after [prepare_filename]. *)
Definition expected_filename (want_mp3 : bool) (filename : py_string) : py_string :=
  if want_mp3 then splitext_root filename ++ u ".mp3"
  else if ends_with (py_lower filename) (u ".mp4") then filename
  else splitext_root filename ++ u ".mp4".

(** [suggested_name or info.get("title") or "video"], short-circuiting. *)
Definition name_base (suggested : option py_string) (info : json) : M json :=
  let title_or_video :=
    let* t := dict_get info (u "title") in
    ret (if truthy t then t else JStr (u "video")) in
  match suggested with
  | Some s => if truthy (JStr s) then ret (JStr s) else title_or_video
  | None => title_or_video
  end.

(** [clean_filename(base)]: [re.sub] needs a string. *)
Definition clean_filename_value (v : json) : M py_string :=
  match v with
  | JStr s => ret (clean_filename s)
  | _ => raise (mkexn (u "TypeError") (u "expected string or bytes-like object"))
  end.

(** [send_file(path, as_attachment=True, download_name=..., mimetype=...)] *)
Definition send_file (path download_name : py_string) : M response :=
  let* fs := get_fs in
  if path_isfile fs path
  then ret (RFile 200 path download_name (u "application/octet-stream"))
  else if path_isdir fs path then raise (mkexn (u "IsADirectoryError") path)
  else raise (mkexn (u "FileNotFoundError") path).

(** The body of the outer [try] of [download]. *)
Definition download_body (env : Env) (url format_id : py_string)
    (suggested_name : option py_string) (audio_only : bool) (temp_dir : py_string)
  : M response :=
  let outtmpl := path_join temp_dir (u "%(title)s.%(ext)s") in
  let mp3 := want_mp3 audio_only format_id in
  let '(opts, output_ext) := download_options env format_id outtmpl mp3 in
  let* r := try_except
              (let* info := call_download env opts url in
               let* filename := lift_sum (ydl_prepare_filename env opts info) in
               ret (inr (info, expected_filename mp3 filename)))
              (fun e => ret (inl (json_error (u "Download failed: " ++ exn_str e) 500))) in
  match r with
  | inl resp => ret resp
  | inr (info, filename) =>
      let* fs := get_fs in
      let* found :=
        if path_exists fs filename then ret (Some filename)
        else
          let* names := listdir temp_dir in
          let* fs' := get_fs in
          let files := filter (path_isfile fs') (map (path_join temp_dir) names) in
          ret (match files with f :: _ => Some f | [] => None end) in
      match found with
      | None => ret (json_error (u "Download completed but file not found") 500)
      | Some filename =>
          let* b := name_base suggested_name info in
          let* cleaned := clean_filename_value b in
          let base := secure_filename cleaned in
          send_file filename (base ++ u "." ++ output_ext)
      end
  end.

(** The [finally] clause. *)
Definition cleanup (env : Env) (temp_dir : py_string) : M unit :=
  try_except (rmtree (os_rmtree_fails env) temp_dir) (fun _ => ret tt).

Definition download (env : Env) (rq : Request) : M response :=
  let args := rq_args rq in
  let url := args_get (u "url") args in
  let format_id := args_get (u "format_id") args in
  let suggested_name := args_get (u "filename") args in
  let flag := audio_only_flag args in
  match url, format_id with
  | Some url, Some format_id =>
      if negb (truthy (JStr url)) || negb (truthy (JStr format_id))
      then ret (json_error (u "Missing 'url' or 'format_id' query parameters") 400)
      else
        let* temp_dir := mkdtemp in
        try_finally (download_body env url format_id suggested_name flag temp_dir)
                    (cleanup env temp_dir)
  | _, _ => ret (json_error (u "Missing 'url' or 'format_id' query parameters") 400)
  end.

(** ** A sample environment

    yt-dlp reporting the title "My Clip" and writing the converted output
    next to the output template; a host where removals succeed. *)

Definition tmpl_suffix : py_string := u "/%(title)s.%(ext)s".

Definition outdir (o : YdlOpts) : py_string :=
  firstn (List.length (o_outtmpl o) - List.length tmpl_suffix) (o_outtmpl o).

Definition sample_info : json :=
  JObj [(u "title", JStr (u "My Clip")); (u "uploader", JStr (u "Someone"));
        (u "duration", JNum 125); (u "thumbnail", JNull);
        (u "webpage_url", JStr (u "https://example.test/watch?v=abc"))].

Definition converted_ext (o : YdlOpts) : py_string :=
  match o_postprocessors o with
  | FFmpegExtractAudio _ _ :: _ => u "mp3"
  | _ => u "mp4"
  end.

Definition sample_env_with (info : json) (rmtree_fails : FS -> py_string -> bool) : Env := {|
  env_ffmpeg_location := u "ffmpeg";
  ydl_info := fun _ => inr info;
  ydl_download := fun o _ fs =>
    (inr info, {| fs_dirs := fs_dirs fs;
                  fs_files := (outdir o ++ u "/My Clip." ++ converted_ext o) :: fs_files fs;
                  fs_counter := fs_counter fs |});
  ydl_prepare_filename := fun o _ => inr (outdir o ++ u "/My Clip.webm");
  os_rmtree_fails := rmtree_fails |}.

Definition sample_env : Env := sample_env_with sample_info (fun _ _ => false).

(** yt-dlp failing on every URL with the same error. *)
Definition unreachable_error : exn :=
  mkexn (u "DownloadError") (u "ERROR: Unable to download webpage: Name or service not known").

Definition failing_env : Env := {|
  env_ffmpeg_location := u "ffmpeg";
  ydl_info := fun _ => inl unreachable_error;
  ydl_download := fun _ _ fs => (inl unreachable_error, fs);
  ydl_prepare_filename := fun _ _ => inl unreachable_error;
  os_rmtree_fails := fun _ _ => false |}.

Definition fs0 : FS := {| fs_dirs := [u "/tmp"]; fs_files := []; fs_counter := 0 |}.

Definition get_request (args : list (py_string * py_string)) : Request :=
  {| rq_body := BodyNone; rq_args := args |}.

(** ** Error reporting *)

Definition outcome_of (r : res response) : outcome :=
  match r with ROk x => Resp x | RExc e => Unhandled e end.

(** [a in b] for strings. *)
Fixpoint is_infix (a b : py_string) : bool :=
  is_prefix a b || match b with [] => false | _ :: b' => is_infix a b' end.

(** An exception raised while handling a request is surfaced when it is
    the exception escaping the view, or when its text appears in the
    [{"error": ...}] body of the response. *)
Definition surfaced (o : outcome) (e : exn) : bool :=
  match o with
  | Unhandled e' => exn_eqb e e'
  | Resp (RJson _ (JObj [(k, JStr m)])) => str_eqb k (u "error") && is_infix (exn_msg e) m
  | Resp _ => false
  end.

(** Exceptions raised and neither escaping nor reported. *)
Definition swallowed (o : outcome) (raised : list exn) : list exn :=
  filter (fun e => negb (surfaced o e)) raised.

(** The exceptions [shutil.rmtree(d)] raises. *)
Definition removal_error (d : py_string) (e : exn) : bool :=
  str_eqb (exn_msg e) d &&
  str_in (exn_type e) [u "OSError"; u "NotADirectoryError"; u "FileNotFoundError"].

(** yt-dlp fails on [url] with [e]: [extract_info(url, download=True)]
    raises [e], or [prepare_filename] does. *)
Definition engine_fails (env : Env) (url : py_string) (e : exn) : Prop :=
  forall opts fs,
    match ydl_download env opts url fs with
    | (inl e', _) => e' = e
    | (inr info, _) => ydl_prepare_filename env opts info = inl e
    end.

Definition malformed_request : Request :=
  {| rq_body := BodyMalformed; rq_args := [(u "url", u "https://example.test/watch?v=abc")] |}.

(** ** [health] and further sample data *)





(** ** Basic facts *)

Lemma str_eqb_eq : forall a b, str_eqb a b = true <-> a = b.
Proof.
  induction a as [|x a IH]; destruct b as [|y b]; simpl; split; intros H;
    try discriminate; try reflexivity.
  - apply andb_true_iff in H as [H1 H2]. apply Z.eqb_eq in H1.
    apply IH in H2. subst. reflexivity.
  - injection H as -> ->. rewrite Z.eqb_refl. simpl. apply IH. reflexivity.
Qed.

Lemma str_eqb_refl : forall a, str_eqb a a = true.
Proof. intros a. apply str_eqb_eq. reflexivity. Qed.

Lemma str_in_In : forall s l, str_in s l = true <-> In s l.
Proof.
  intros s l. unfold str_in. rewrite existsb_exists. split.
  - intros (x & Hx & He). apply str_eqb_eq in He. subst. exact Hx.
  - intros Hin. exists s. split; [exact Hin | apply str_eqb_refl].
Qed.

(** Destructs the scrutinees of the matches of [H], innermost first. *)
Ltac destruct_in H :=
  match type of H with
  | context [truthy ?y] => destruct (truthy y) eqn:?
  | context [match ?x with _ => _ end] =>
      lazymatch x with
      | context [match _ with _ => _ end] => fail
      | _ => destruct x eqn:?
      end
  end.

Ltac run_in H :=
  repeat (progress (unfold bind, ret, raise, try_except, try_finally, get_fs, put_fs,
                            lift_sum, call_download in H;
                     cbn -[u obj_lookup build_format_options secure_filename clean_filename
                          audio_only_flag want_mp3 download_options expected_filename
                          mkdtemp_name remove_tree path_join dir_entries] in H)
          || destruct_in H);
  try discriminate H.

(** ** Format catalog *)

Definition catalog_labels : list py_string :=
  map u ["1080p"; "720p"; "480p"; "360p"; "240p"; "144p"; "MP3 (audio only)"]%string.

Lemma fetch_info_ok_body : forall env rq st0 body st,
  fetch_info env rq st0 = (ROk (RJson 200 body), st) ->
  exists kv, body = JObj kv /\
    obj_get (u "formats") kv = Some (JArr (map format_to_json (build_format_options JNull))).
Proof.
  intros env rq st0 body st H.
  unfold fetch_info, request_url, get_json_silent, dict_get in H.
  run_in H.

  all: idtac.
all: injection H as <- <-; eexists; split; reflexivity.

Qed.

Lemma build_format_options_const : forall info,
  build_format_options info = build_format_options JNull.
Proof. reflexivity. Qed.

Lemma catalog_ids_nodup : NoDup (map fo_id (build_format_options JNull)).
Proof.
  vm_compute.
  repeat constructor; simpl; intros Hin; repeat destruct Hin as [Hin|Hin];
    try discriminate; contradiction.
Qed.

(** C1: a successful /fetch_info response carries, under ["formats"], the
    same catalog whatever the URL and whatever yt-dlp reported: seven
    entries labelled 1080p, 720p, 480p, 360p, 240p, 144p and
    MP3 (audio only), in this order, with pairwise distinct selectors. *)
Theorem fetch_info_formats_fixed : forall env rq fs body st,
  run (fetch_info env rq) fs = (Resp (RJson 200 body), st) ->
  (exists kv, body = JObj kv /\
     obj_get (u "formats") kv = Some (JArr (map format_to_json (build_format_options JNull))))
  /\ List.length (build_format_options JNull) = 7%nat
  /\ map fo_label (build_format_options JNull) = catalog_labels
  /\ NoDup (map fo_id (build_format_options JNull)).
Proof.
  intros env rq fs body st H. unfold run in H.
  destruct (fetch_info env rq _) as [[r|e] st'] eqn:E; injection H as Hr Hst.
  - subst r. split; [exact (fetch_info_ok_body _ _ _ _ _ E) |].
    split; [reflexivity |]. split; [reflexivity | exact catalog_ids_nodup].
  - discriminate Hr.
Qed.

Definition url_request : Request :=
  get_request [(u "url", u "https://example.test/watch?v=abc")].

Lemma fetch_info_formats_fixed_witness :
  exists body st,
    run (fetch_info sample_env url_request) fs0 = (Resp (RJson 200 body), st) /\
    ((exists kv, body = JObj kv /\
       obj_get (u "formats") kv = Some (JArr (map format_to_json (build_format_options JNull))))
     /\ List.length (build_format_options JNull) = 7%nat
     /\ map fo_label (build_format_options JNull) = catalog_labels
     /\ NoDup (map fo_id (build_format_options JNull))).
Proof.
  do 2 eexists. split.
  - vm_compute. reflexivity.
  - eapply (fetch_info_formats_fixed sample_env url_request fs0). vm_compute. reflexivity.
Defined.

(** C8: the only audio entry of the catalog has the selector "bestaudio",
    the sentinel [download] compares [format_id] with: submitting it takes
    the mp3 branch (best audio, FFmpegExtractAudio to mp3 at 192). *)
Theorem audio_option_selects_mp3 : forall info f,
  In f (build_format_options info) -> fo_type f = u "audio" ->
  filter (fun g => str_eqb (fo_type g) (u "audio")) (build_format_options info) = [f] /\
  fo_id f = u "bestaudio" /\
  forall env outtmpl audio_only,
    want_mp3 audio_only (fo_id f) = true /\
    download_options env (fo_id f) outtmpl (want_mp3 audio_only (fo_id f)) =
    ({| o_format := u "bestaudio"; o_outtmpl := outtmpl; o_merge_output_format := u "mp4";
        o_ffmpeg_location := env_ffmpeg_location env;
        o_postprocessors := [FFmpegExtractAudio (u "mp3") (u "192")];
        o_noplaylist := true; o_quiet := true; o_no_warnings := true |}, u "mp3").
Proof.
  intros info f Hin Htype.
  rewrite build_format_options_const in *.
  vm_compute in Hin.
  repeat destruct Hin as [<-|Hin]; try contradiction;
    vm_compute in Htype; try discriminate Htype.
  split; [reflexivity |]. split; [reflexivity |].
  intros env outtmpl audio_only.
  cbn [fo_id]. unfold want_mp3.
  replace (str_eqb _ _) with true by (vm_compute; reflexivity).
  rewrite orb_true_r. split; reflexivity.
Qed.

Lemma audio_option_selects_mp3_witness :
  In audio_option (build_format_options JNull) /\ fo_type audio_option = u "audio" /\
  filter (fun g => str_eqb (fo_type g) (u "audio")) (build_format_options JNull) = [audio_option] /\
  fo_id audio_option = u "bestaudio".
Proof.
  assert (Hin : In audio_option (build_format_options JNull))
    by (vm_compute; repeat (first [left; reflexivity | right])).
  assert (Ht : fo_type audio_option = u "audio") by reflexivity.
  destruct (audio_option_selects_mp3 JNull audio_option Hin Ht) as (H1 & H2 & _).
  repeat split; assumption.
Defined.

(** C9: [audio_only] counts as set exactly when the (first) [audio_only]
    query value, lower-cased, is "1", "true" or "yes"; absent, "0" and "on"
    do not set it. *)
Theorem audio_only_flag_iff : forall args,
  (audio_only_flag args = true <->
   exists v, args_get (u "audio_only") args = Some v /\
             In (py_lower v) [u "1"; u "true"; u "yes"]) /\
  (args_get (u "audio_only") args = None -> audio_only_flag args = false) /\
  (args_get (u "audio_only") args = Some (u "0") -> audio_only_flag args = false) /\
  (args_get (u "audio_only") args = Some (u "on") -> audio_only_flag args = false).
Proof.
  intros args. unfold audio_only_flag.
  destruct (args_get (u "audio_only") args) as [v|] eqn:E.
  - split; [| split; [discriminate | split; intros H; injection H as ->; reflexivity]].
    rewrite str_in_In. split.
    + intros H. exists v. split; [reflexivity | exact H].
    + intros (w & Hw & H). injection Hw as <-. exact H.
  - split; [| split; [reflexivity | split; discriminate]].
    split; [intros H; discriminate H | intros (w & Hw & _); discriminate Hw].
Qed.

Lemma audio_only_flag_iff_witness :
  audio_only_flag [(u "audio_only", u "TRUE")] = true /\
  audio_only_flag [(u "audio_only", u "on")] = false /\
  audio_only_flag [] = false.
Proof.
  destruct (audio_only_flag_iff [(u "audio_only", u "TRUE")]) as (Hiff & _).
  destruct (audio_only_flag_iff [(u "audio_only", u "on")]) as (_ & _ & _ & Hon).
  destruct (audio_only_flag_iff []) as (_ & Hnone & _).
  split; [| split].
  - apply Hiff. exists (u "TRUE"). split; [reflexivity |]. vm_compute. right. left. reflexivity.
  - apply Hon. reflexivity.
  - apply Hnone. reflexivity.
Defined.

(** ** Download: shape of a served file *)

(** [suggested_name or info.get("title") or "video"] as a value; [None]
    when [info.get] would raise. *)
Definition name_base_value (suggested : option py_string) (info : json) : option json :=
  let title_or_video :=
    match info with
    | JObj kv => let t := obj_lookup (u "title") kv in
                 Some (if truthy t then t else JStr (u "video"))
    | _ => None
    end in
  match suggested with
  | Some s => if truthy (JStr s) then Some (JStr s) else title_or_video
  | None => title_or_video
  end.

Lemma download_options_ext : forall env fid outtmpl b,
  snd (download_options env fid outtmpl b) = if b then u "mp3" else u "mp4".
Proof. intros env fid outtmpl []; reflexivity. Qed.

Ltac use_eqs :=
  repeat match goal with
  | Hb : ?t = true |- context [?t] => rewrite Hb
  | Hb : ?t = false |- context [?t] => rewrite Hb
  | Hb : obj_lookup ?k ?kv = _ |- context [obj_lookup ?k ?kv] => rewrite Hb
  end.

Lemma download_file_inv : forall env rq st0 s p n m st,
  download env rq st0 = (ROk (RFile s p n m), st) ->
  exists url fid info o fs fs' b,
    args_get (u "url") (rq_args rq) = Some url /\
    args_get (u "format_id") (rq_args rq) = Some fid /\
    ydl_download env o url fs = (inr info, fs') /\
    name_base_value (args_get (u "filename") (rq_args rq)) info = Some (JStr b) /\
    s = 200 /\
    n = secure_filename (clean_filename b) ++ u "." ++
        (if want_mp3 (audio_only_flag (rq_args rq)) fid then u "mp3" else u "mp4").
Proof.
  intros env rq st0 s p n m st H.
  unfold download, download_body, mkdtemp, cleanup, rmtree, listdir, name_base,
    clean_filename_value, send_file, dict_get in H.
  run_in H.
  all: try discriminate.
  all: inversion H; subst; clear H;
    match goal with
    | E : download_options ?e ?f ?o ?b = (_, ?x) |- _ =>
        let Hx := fresh in
        pose proof (download_options_ext e f o b) as Hx; rewrite E in Hx;
        cbn [snd] in Hx; subst x
    end;
    match goal with
    | E : ydl_download _ _ _ _ = (inr _, _) |- _ =>
        do 7 eexists; split; [reflexivity |]; split; [reflexivity |];
        split; [exact E |]; split;
        [ unfold name_base_value; cbn -[u obj_lookup]; use_eqs; cbn -[u obj_lookup];
          use_eqs; reflexivity
        | split; reflexivity ]
    end.
Qed.

Lemma ends_with_app : forall a b, ends_with (a ++ b) b = true.
Proof.
  intros a b. unfold ends_with. rewrite length_app.
  replace (List.length a + List.length b - List.length b)%nat with (List.length a) by lia.
  rewrite skipn_app, skipn_all, Nat.sub_diag, skipn_O. simpl.
  rewrite str_eqb_refl, andb_true_r. apply Nat.leb_le. lia.
Qed.

Lemma run_file_inv : forall h fs s p n m st,
  run h fs = (Resp (RFile s p n m), st) ->
  h {| st_fs := fs; st_raised := [] |} = (ROk (RFile s p n m), st).
Proof.
  intros h fs s p n m st H. unfold run in H.
  destruct (h _) as [[r|e] st'] eqn:E.
  - injection H as -> ->. reflexivity.
  - discriminate H.
Qed.

(** C3: a served attachment's name ends in ".mp3" when [format_id] is
    "bestaudio" or [audio_only] is set, and in ".mp4" otherwise. *)
Theorem download_attachment_extension : forall env rq fs fid s p n m st,
  args_get (u "format_id") (rq_args rq) = Some fid ->
  run (download env rq) fs = (Resp (RFile s p n m), st) ->
  ends_with n (if want_mp3 (audio_only_flag (rq_args rq)) fid
               then u ".mp3" else u ".mp4") = true.
Proof.
  intros env rq fs fid s p n m st Hfid H.
  apply run_file_inv, download_file_inv in H.
  destruct H as (url & fid' & info & o & fs1 & fs2 & b & _ & Hfid' & _ & _ & _ & ->).
  rewrite Hfid in Hfid'. injection Hfid' as <-.
  destruct (want_mp3 _ _); apply ends_with_app.
Qed.

Definition bestaudio_request : Request :=
  get_request [(u "url", u "https://example.test/watch?v=abc"); (u "format_id", u "bestaudio")].

Lemma download_attachment_extension_witness :
  exists p n st,
    run (download sample_env bestaudio_request) fs0 =
      (Resp (RFile 200 p n (u "application/octet-stream")), st) /\
    ends_with n (u ".mp3") = true.
Proof.
  do 3 eexists. split.
  - vm_compute. reflexivity.
  - exact (download_attachment_extension sample_env bestaudio_request fs0 (u "bestaudio")
             200 _ _ _ _ eq_refl ltac:(vm_compute; reflexivity)).
Defined.

(** C10: with no [filename] parameter and a title that is absent, null or
    empty, the attachment is named "video.mp4" or "video.mp3", after the
    branch taken. *)
Theorem download_name_fallback_video : forall env rq fs fid s p n m st,
  args_get (u "filename") (rq_args rq) = None ->
  args_get (u "format_id") (rq_args rq) = Some fid ->
  (forall o url fs1 info fs2, ydl_download env o url fs1 = (inr info, fs2) ->
     exists kv, info = JObj kv /\
       (obj_get (u "title") kv = None \/ obj_get (u "title") kv = Some JNull \/
        obj_get (u "title") kv = Some (JStr []))) ->
  run (download env rq) fs = (Resp (RFile s p n m), st) ->
  n = u "video" ++ (if want_mp3 (audio_only_flag (rq_args rq)) fid
                    then u ".mp3" else u ".mp4").
Proof.
  intros env rq fs fid s p n m st Hname Hfid Htitle H.
  apply run_file_inv, download_file_inv in H.
  destruct H as (url & fid' & info & o & fs1 & fs2 & b & _ & Hfid' & Hdl & Hb & _ & ->).
  rewrite Hfid in Hfid'. injection Hfid' as <-.
  destruct (Htitle _ _ _ _ _ Hdl) as (kv & -> & Ht).
  rewrite Hname in Hb. unfold name_base_value, obj_lookup in Hb.
  assert (Hv : b = u "video")
    by (destruct Ht as [Ht|[Ht|Ht]]; rewrite Ht in Hb; injection Hb as <-; reflexivity).
  subst b. destruct (want_mp3 _ _); reflexivity.
Qed.

Definition untitled_info : json :=
  JObj [(u "title", JNull); (u "webpage_url", JStr (u "https://example.test/watch?v=abc"))].

Definition video_request : Request :=
  get_request [(u "url", u "https://example.test/watch?v=abc");
               (u "format_id", u "bestvideo[height<=720]+bestaudio/best[height<=720]")].

Lemma download_name_fallback_video_witness :
  exists p n st,
    run (download (sample_env_with untitled_info (fun _ _ => false)) video_request) fs0 =
      (Resp (RFile 200 p n (u "application/octet-stream")), st) /\
    n = u "video.mp4".
Proof.
  do 3 eexists. split.
  - vm_compute. reflexivity.
  - refine (download_name_fallback_video (sample_env_with untitled_info (fun _ _ => false))
              video_request fs0
              (u "bestvideo[height<=720]+bestaudio/best[height<=720]") 200 _ _ _ _
              eq_refl eq_refl _ ltac:(vm_compute; reflexivity)).
    intros o url fs1 info fs2 E. injection E as <- _.
    exists [(u "title", JNull); (u "webpage_url", JStr (u "https://example.test/watch?v=abc"))].
    split; [reflexivity | right; left; reflexivity].
Defined.

(** C7 (as the code behaves): for format "bestaudio", no [filename]
    parameter, and yt-dlp reporting the title "My Clip", the attachment is
    named "My_Clip.mp3": [secure_filename] turns the space into an
    underscore. *)
Theorem download_my_clip_name : forall env rq fs s p n m st,
  args_get (u "format_id") (rq_args rq) = Some (u "bestaudio") ->
  args_get (u "filename") (rq_args rq) = None ->
  (forall o url fs1 info fs2, ydl_download env o url fs1 = (inr info, fs2) ->
     exists kv, info = JObj kv /\ obj_get (u "title") kv = Some (JStr (u "My Clip"))) ->
  run (download env rq) fs = (Resp (RFile s p n m), st) ->
  n = u "My_Clip.mp3".
Proof.
  intros env rq fs s p n m st Hfid Hname Htitle H.
  apply run_file_inv, download_file_inv in H.
  destruct H as (url & fid' & info & o & fs1 & fs2 & b & _ & Hfid' & Hdl & Hb & _ & ->).
  rewrite Hfid in Hfid'. injection Hfid' as <-.
  destruct (Htitle _ _ _ _ _ Hdl) as (kv & -> & Ht).
  rewrite Hname in Hb. unfold name_base_value, obj_lookup in Hb. rewrite Ht in Hb.
  injection Hb as <-.
  assert (Hw : forall a, want_mp3 a (u "bestaudio") = true)
    by (intros a; unfold want_mp3; rewrite str_eqb_refl, orb_true_r; reflexivity).
  rewrite Hw. vm_compute. reflexivity.
Qed.

Lemma download_my_clip_name_witness :
  exists p n st,
    run (download sample_env bestaudio_request) fs0 =
      (Resp (RFile 200 p n (u "application/octet-stream")), st) /\
    n = u "My_Clip.mp3".
Proof.
  do 3 eexists. split.
  - vm_compute. reflexivity.
  - refine (download_my_clip_name sample_env bestaudio_request fs0 200 _ _ _ _
              eq_refl eq_refl _ ltac:(vm_compute; reflexivity)).
    intros o url fs1 info fs2 E. injection E as <- _.
    eexists. split; [reflexivity | vm_compute; reflexivity].
Defined.

(** C7 as stated fails: the attachment is not named "My Clip.mp3". *)
Lemma download_my_clip_name_counterexample :
  exists p st,
    run (download sample_env bestaudio_request) fs0 =
      (Resp (RFile 200 p (u "My_Clip.mp3") (u "application/octet-stream")), st) /\
    u "My_Clip.mp3" <> u "My Clip.mp3".
Proof.
  do 2 eexists. split.
  - vm_compute. reflexivity.
  - vm_compute. discriminate.
Qed.

(** ** Filename sanitising *)

Lemma In_lstrip_by : forall p s x, In x (lstrip_by p s) -> In x s.
Proof.
  intros p s x. induction s as [|c s IH]; simpl; [tauto |].
  destruct (p c); simpl; tauto.
Qed.

Lemma In_strip_by : forall p s x, In x (strip_by p s) -> In x s.
Proof.
  intros p s x H. unfold strip_by in H.
  apply in_rev, In_lstrip_by, in_rev, In_lstrip_by in H. exact H.
Qed.

Lemma filename_ascii_not_unsafe : forall c,
  filename_ascii_char c = true -> unsafe_char c = false.
Proof.
  intros c Hc. destruct (unsafe_char c) eqn:Hu; [| reflexivity].
  unfold unsafe_char in Hu. apply existsb_exists in Hu as (x & Hx & Hcx).
  apply Z.eqb_eq in Hcx. subst x.
  simpl in Hx. repeat destruct Hx as [<-|Hx]; try contradiction; discriminate Hc.
Qed.

Lemma secure_filename_safe : forall s c,
  In c (secure_filename s) -> unsafe_char c = false.
Proof.
  intros s c H. unfold secure_filename in H.
  apply In_strip_by, filter_In in H as [_ H].
  apply filename_ascii_not_unsafe, H.
Qed.

(** Two hundred U+2177 SMALL ROMAN NUMERAL EIGHT, whose NFKD form is "viii". *)
Definition roman_eight_name : py_string := repeat 8567 200.

Definition roman_eight_request : Request :=
  get_request [(u "url", u "https://example.test/watch?v=abc"); (u "format_id", u "bestaudio");
               (u "filename", roman_eight_name)].

(** C6: the derived base never holds one of the characters of
    [clean_filename]'s class, but its length is not capped at 200: the cap
    is applied before [secure_filename], whose NFKD step can lengthen the
    name; 200 code points U+2177 give an 800-character base. *)
Theorem download_name_base_length : 
  (forall s, forallb (fun c => negb (unsafe_char c)) (secure_filename (clean_filename s)) = true) /\
  List.length (clean_filename roman_eight_name) = 200%nat /\
  exists p st,
    run (download sample_env roman_eight_request) fs0 =
      (Resp (RFile 200 p (List.concat (repeat (u "viii") 200) ++ u ".mp3")
                   (u "application/octet-stream")), st) /\
    List.length (List.concat (repeat (u "viii") 200)) = 800%nat.
Proof.
  split; [| split].
  - intros s. apply forallb_forall. intros c Hc.
    rewrite (secure_filename_safe _ _ Hc). reflexivity.
  - vm_compute. reflexivity.
  - do 2 eexists. split; vm_compute; reflexivity.
Qed.

(** ** Missing parameters *)

(** A JSON array body to /fetch_info (and no [url] in the query string). *)
Definition array_body_request : Request :=
  {| rq_body := BodyJson (JArr [JNum 1]); rq_args := [] |}.

(** C5: such a request has no url anywhere, yet [data.get] is called on a
    list: the view raises AttributeError, answered with 500, not 400. *)
Theorem fetch_info_array_body_unhandled : forall env fs,
  exists st,
    run (fetch_info env array_body_request) fs =
      (Unhandled (mkexn (u "AttributeError") (u "'list' object has no attribute 'get'")), st) /\
    status_of (Unhandled (mkexn (u "AttributeError") (u "'list' object has no attribute 'get'")))
      = 500 /\
    args_get (u "url") (rq_args array_body_request) = None.
Proof.
  intros env fs. eexists. split; [| split; reflexivity].
  reflexivity.
Qed.

(** ** Scratch directory lifecycle *)

Lemma remove_tree_gone : forall d fs, path_isdir (remove_tree d fs) d = false.
Proof.
  intros d fs. unfold path_isdir, remove_tree. simpl.
  destruct (str_in d _) eqn:E; [| reflexivity].
  apply str_in_In, filter_In in E as [_ E].
  rewrite str_eqb_refl in E. discriminate E.
Qed.

(** The [finally] clause never raises; it records at most the removal
    error, and when the host lets the removal through, the directory is
    gone afterwards. *)
Lemma cleanup_spec : forall env d st,
  exists st', cleanup env d st = (ROk tt, st') /\
    st_raised st' = st_raised st ++
      (if path_isdir (st_fs st) d then
         if os_rmtree_fails env (st_fs st) d then [mkexn (u "OSError") d] else []
       else if path_isfile (st_fs st) d then [mkexn (u "NotADirectoryError") d]
       else [mkexn (u "FileNotFoundError") d]) /\
    ((forall fs, os_rmtree_fails env fs d = false) -> path_isdir (st_fs st') d = false).
Proof.
  intros env d [fs raised].
  unfold cleanup, try_except, rmtree, bind, get_fs, put_fs, raise. simpl.
  destruct (path_isdir fs d) eqn:Hdir.
  - destruct (os_rmtree_fails env fs d) eqn:Hf.
    + eexists. split; [reflexivity |]. simpl. split; [reflexivity |].
      intros Hno. rewrite Hno in Hf. discriminate Hf.
    + eexists. split; [reflexivity |]. simpl.
      split; [rewrite app_nil_r; reflexivity |]. intros _. apply remove_tree_gone.
  - destruct (path_isfile fs d);
      (eexists; split; [reflexivity |]; simpl; split; [reflexivity | intros _; exact Hdir]).
Qed.

Lemma try_finally_cleanup : forall {A} env d (m : M A) st,
  exists st', try_finally m (cleanup env d) st = (fst (m st), st') /\
    ((forall fs, os_rmtree_fails env fs d = false) -> path_isdir (st_fs st') d = false).
Proof.
  intros A env d m st. unfold try_finally.
  destruct (m st) as [r st1].
  destruct (cleanup_spec env d st1) as (st2 & -> & _ & Hgone).
  exists st2. split; [reflexivity | exact Hgone].
Qed.

Lemma truthy_nonempty : forall s, s <> [] -> truthy (JStr s) = true.
Proof. intros [|c s] H; [contradiction | reflexivity]. Qed.

(** Past validation, [download] is [mkdtemp] followed by the outer
    [try]/[finally]. *)
Lemma download_validated : forall env rq st0 url fid d,
  args_get (u "url") (rq_args rq) = Some url -> url <> [] ->
  args_get (u "format_id") (rq_args rq) = Some fid -> fid <> [] ->
  mkdtemp_name (st_fs st0) = Some d ->
  download env rq st0 =
    try_finally (download_body env url fid (args_get (u "filename") (rq_args rq))
                               (audio_only_flag (rq_args rq)) d)
                (cleanup env d)
                {| st_fs := {| fs_dirs := d :: fs_dirs (st_fs st0);
                               fs_files := fs_files (st_fs st0);
                               fs_counter := fs_counter (st_fs st0) + 1 |};
                   st_raised := st_raised st0 |}.
Proof.
  intros env rq st0 url fid d Hurl Hu Hfid Hf Hd.
  unfold download. rewrite Hurl, Hfid, (truthy_nonempty _ Hu), (truthy_nonempty _ Hf).
  simpl. unfold mkdtemp, bind, get_fs, put_fs, ret. rewrite Hd. reflexivity.
Qed.

(** [env] with another host behaviour for [shutil.rmtree]. *)
Definition with_rmtree (env : Env) (f : FS -> py_string -> bool) : Env := {|
  env_ffmpeg_location := env_ffmpeg_location env;
  ydl_info := ydl_info env;
  ydl_download := ydl_download env;
  ydl_prepare_filename := ydl_prepare_filename env;
  os_rmtree_fails := f |}.

(** C2 (as the code behaves): past validation, whatever the exit path,
    the handler's outcome does not depend on whether the removal of the
    scratch directory fails (a failure is swallowed), and when the host
    lets the removal through the directory no longer exists on return. *)
Theorem download_scratch_cleanup : forall env rq fs url fid d o st,
  args_get (u "url") (rq_args rq) = Some url -> url <> [] ->
  args_get (u "format_id") (rq_args rq) = Some fid -> fid <> [] ->
  mkdtemp_name fs = Some d ->
  run (download env rq) fs = (o, st) ->
  (forall f, fst (run (download (with_rmtree env f) rq) fs) = o) /\
  ((forall fs', os_rmtree_fails env fs' d = false) -> path_isdir (st_fs st) d = false).
Proof.
  intros env rq fs url fid d o st Hurl Hu Hfid Hf Hd H.
  unfold run in *.
  rewrite (download_validated env rq {| st_fs := fs; st_raised := [] |} url fid d Hurl Hu Hfid Hf Hd) in H.
  destruct (try_finally_cleanup env d
              (download_body env url fid (args_get (u "filename") (rq_args rq))
                             (audio_only_flag (rq_args rq)) d)
              {| st_fs := {| fs_dirs := d :: fs_dirs fs; fs_files := fs_files fs;
                             fs_counter := fs_counter fs + 1 |};
                 st_raised := [] |}) as (st1 & E & Hgone).
  cbn [st_fs st_raised] in H, E. rewrite E in H.
  split.
  - intros f.
    rewrite (download_validated (with_rmtree env f) rq {| st_fs := fs; st_raised := [] |} url fid d Hurl Hu Hfid Hf Hd).
    destruct (try_finally_cleanup (with_rmtree env f) d
                (download_body (with_rmtree env f) url fid (args_get (u "filename") (rq_args rq))
                               (audio_only_flag (rq_args rq)) d)
                {| st_fs := {| fs_dirs := d :: fs_dirs fs; fs_files := fs_files fs;
                               fs_counter := fs_counter fs + 1 |};
                   st_raised := [] |}) as (st2 & E2 & _).
    cbn [st_fs st_raised] in E2 |- *. rewrite E2.
    change (download_body (with_rmtree env f)) with (download_body env).
    destruct (fst _); injection H as <- _; reflexivity.
  - intros Hno. destruct (fst _); injection H as _ <-; exact (Hgone Hno).
Qed.

Lemma download_scratch_cleanup_witness :
  exists o st,
    run (download sample_env bestaudio_request) fs0 = (o, st) /\
    (forall f, fst (run (download (with_rmtree sample_env f) bestaudio_request) fs0) = o) /\
    path_isdir (st_fs st) (u "/tmp/ydl_0") = false.
Proof.
  do 2 eexists. split; [vm_compute; reflexivity |].
  destruct (download_scratch_cleanup sample_env bestaudio_request fs0
              (u "https://example.test/watch?v=abc") (u "bestaudio") (u "/tmp/ydl_0") _ _
              eq_refl ltac:(discriminate) eq_refl ltac:(discriminate)
              ltac:(vm_compute; reflexivity) ltac:(vm_compute; reflexivity)) as [H1 H2].
  split; [exact H1 | apply H2; reflexivity].
Defined.

(** C2 as stated fails: on a host where [shutil.rmtree] fails, the error is
    swallowed, the file is served, and the scratch directory is still
    there when the handler returns. *)
Lemma download_scratch_cleanup_counterexample :
  exists r st,
    run (download (sample_env_with sample_info (fun _ _ => true)) bestaudio_request) fs0 =
      (Resp r, st) /\
    mkdtemp_name fs0 = Some (u "/tmp/ydl_0") /\
    path_isdir (st_fs st) (u "/tmp/ydl_0") = true.
Proof.
  do 2 eexists. split; [vm_compute; reflexivity |].
  split; vm_compute; reflexivity.
Qed.

(** ** Error reporting: proofs *)
Lemma is_prefix_app : forall a b, is_prefix a (a ++ b) = true.
Proof.
  intros a b. unfold is_prefix. rewrite firstn_app, Nat.sub_diag, firstn_all.
  simpl. rewrite app_nil_r. apply str_eqb_refl.
Qed.

Lemma is_infix_app : forall a b, is_infix b (a ++ b) = true.
Proof.
  intros a b. induction a as [|c a IH]; simpl.
  - destruct b as [|c b]; [reflexivity |].
    cbn [is_infix]. unfold is_prefix. rewrite firstn_all, str_eqb_refl. reflexivity.
  - rewrite IH, orb_true_r. reflexivity.
Qed.

Lemma exn_eqb_refl : forall e, exn_eqb e e = true.
Proof. intros [t m]. unfold exn_eqb. simpl. rewrite !str_eqb_refl. reflexivity. Qed.

Lemma surfaced_error : forall status pre e,
  surfaced (Resp (json_error (pre ++ exn_str e) status)) e = true.
Proof.
  intros status pre e. unfold surfaced, json_error, exn_str.
  rewrite is_infix_app. reflexivity.
Qed.

Lemma surfaced_unhandled : forall e, surfaced (Unhandled e) e = true.
Proof. intros e. apply exn_eqb_refl. Qed.

Ltac close_raised H :=
  inversion H; subst; clear H; eexists;
  (split; [cbn [st_raised]; rewrite <- ?app_assoc; first [reflexivity | symmetry; apply app_nil_r] |]);
  let e := fresh "e" in let He := fresh "He" in
  intros e He; simpl in He; repeat destruct He as [<-|He]; try contradiction;
  first [ right; reflexivity
        | apply surfaced_unhandled
        | apply (surfaced_error _ (u "Download failed: "))
        | left; apply surfaced_unhandled
        | left; apply (surfaced_error _ (u "Download failed: "))
        | left; apply (surfaced_error _ (u "Failed to extract info: ")) ].

Lemma fetch_info_raised : forall env rq st0 r st,
  fetch_info env rq st0 = (r, st) ->
  exists L, st_raised st = st_raised st0 ++ L /\
    forall e, In e L -> surfaced (outcome_of r) e = true \/ e = json_decode_error.
Proof.
  intros env rq st0 r st H.
  unfold fetch_info, request_url, get_json_silent, dict_get in H.
  run_in H.
  all: close_raised H.
Qed.

Lemma download_body_raised : forall env url fid sug flag d st0 r st,
  download_body env url fid sug flag d st0 = (r, st) ->
  exists L, st_raised st = st_raised st0 ++ L /\
    forall e, In e L -> surfaced (outcome_of r) e = true.
Proof.
  intros env url fid sug flag d st0 r st H.
  unfold download_body, listdir, name_base, clean_filename_value, send_file, dict_get in H.
  destruct (download_options env fid (path_join d (u "%(title)s.%(ext)s")) (want_mp3 flag fid))
    as [opts ext].
  run_in H.
  all: close_raised H.
Qed.

Lemma removal_error_cases : forall env d st e,
  In e (if path_isdir (st_fs st) d then
          if os_rmtree_fails env (st_fs st) d then [mkexn (u "OSError") d] else []
        else if path_isfile (st_fs st) d then [mkexn (u "NotADirectoryError") d]
        else [mkexn (u "FileNotFoundError") d]) ->
  removal_error d e = true.
Proof.
  intros env d st e He.
  destruct (path_isdir (st_fs st) d); [destruct (os_rmtree_fails env (st_fs st) d) |
    destruct (path_isfile (st_fs st) d)];
    simpl in He; repeat destruct He as [<-|He]; try contradiction;
    unfold removal_error; simpl; rewrite str_eqb_refl; reflexivity.
Qed.

Lemma download_raised : forall env rq fs o st e,
  run (download env rq) fs = (o, st) -> In e (st_raised st) ->
  surfaced o e = true \/ (exists d, mkdtemp_name fs = Some d /\ removal_error d e = true).
Proof.
  intros env rq fs o st e H He.
  unfold run, download in H.
  destruct (args_get (u "url") (rq_args rq)) as [url|];
    [| injection H as _ <-; contradiction].
  destruct (args_get (u "format_id") (rq_args rq)) as [fid|];
    [| injection H as _ <-; contradiction].
  destruct (negb (truthy (JStr url)) || negb (truthy (JStr fid)));
    [injection H as _ <-; contradiction |].
  unfold mkdtemp, bind, get_fs, put_fs, ret, raise in H. cbn [st_fs st_raised] in H.
  destruct (mkdtemp_name fs) as [d|] eqn:Hd.
  - unfold try_finally in H.
    match type of H with
    | context [download_body ?env ?url ?fid ?sug ?flag ?d ?st1] =>
        destruct (download_body env url fid sug flag d st1) as [r1 st2] eqn:Eb
    end.
    destruct (download_body_raised _ _ _ _ _ _ _ _ _ Eb) as (L & HL & Hs).
    destruct (cleanup_spec env d st2) as (st3 & Ec & Hr & _).
    rewrite Ec in H. injection H as Ho <-.
    rewrite Hr, HL in He. cbn [st_raised] in He.
    apply in_app_or in He as [He|He].
    + left. rewrite <- Ho. exact (Hs e He).
    + right. exists d. split; [reflexivity |]. exact (removal_error_cases env d st2 e He).
  - injection H as <- <-. simpl in He. destruct He as [<-|[]].
    left. apply surfaced_unhandled.
Qed.

Lemma fetch_info_engine_error : forall env rq st0 url st1 e,
  request_url rq st0 = (ROk url, st1) -> truthy url = true -> ydl_info env url = inl e ->
  fetch_info env rq st0 =
    (ROk (json_error (u "Failed to extract info: " ++ exn_str e) 500),
     {| st_fs := st_fs st1; st_raised := st_raised st1 ++ [e] |}).
Proof.
  intros env rq st0 url st1 e Hu Ht He.
  unfold fetch_info. unfold bind at 1. rewrite Hu. rewrite Ht. cbn beta iota.
  unfold try_except, bind, lift_sum. rewrite He. reflexivity.
Qed.

Lemma download_body_engine_error : forall env url fid sug flag d e st,
  engine_fails env url e ->
  fst (download_body env url fid sug flag d st) =
    ROk (json_error (u "Download failed: " ++ exn_str e) 500).
Proof.
  intros env url fid sug flag d e st Hf.
  unfold download_body. cbv zeta.
  destruct (download_options env fid (path_join d (u "%(title)s.%(ext)s")) (want_mp3 flag fid))
    as [opts ext].
  unfold bind, try_except, call_download, lift_sum, ret, raise.
  specialize (Hf opts (st_fs st)).
  destruct (ydl_download env opts url (st_fs st)) as [[e'|info] fs1].
  - subst e'. reflexivity.
  - rewrite Hf. reflexivity.
Qed.

Lemma download_engine_error : forall env rq fs url fid d e o st,
  args_get (u "url") (rq_args rq) = Some url -> url <> [] ->
  args_get (u "format_id") (rq_args rq) = Some fid -> fid <> [] ->
  mkdtemp_name fs = Some d -> engine_fails env url e ->
  run (download env rq) fs = (o, st) ->
  o = Resp (json_error (u "Download failed: " ++ exn_str e) 500) /\
  ((forall fs', os_rmtree_fails env fs' d = false) -> path_isdir (st_fs st) d = false).
Proof.
  intros env rq fs url fid d e o st Hurl Hu Hfid Hf Hd He H.
  unfold run in H.
  rewrite (download_validated env rq {| st_fs := fs; st_raised := [] |} url fid d Hurl Hu Hfid Hf Hd) in H.
  destruct (try_finally_cleanup env d
              (download_body env url fid (args_get (u "filename") (rq_args rq))
                             (audio_only_flag (rq_args rq)) d)
              {| st_fs := {| fs_dirs := d :: fs_dirs fs; fs_files := fs_files fs;
                             fs_counter := fs_counter fs + 1 |};
                 st_raised := [] |}) as (st1 & E & Hgone).
  cbn [st_fs st_raised] in H, E. rewrite E, (download_body_engine_error _ _ _ _ _ _ _ _ He) in H.
  injection H as <- <-. split; [reflexivity | exact Hgone].
Qed.

(** C4 (amended). An error of the extraction engine is reported verbatim:
    when [extract_info] raises [e] on the URL [/fetch_info] reads, the
    response is 500 with error [Failed to extract info: str(e)]; when yt-dlp
    raises [e] in a validated [/download], the response is 500 with error
    [Download failed: str(e)], and the scratch directory is gone when its
    removal does not fail. Every other exception raised while handling a
    request escapes the view or appears in its error body, except two:
    in [/fetch_info] the decoding error of a malformed JSON body, which
    [get_json(silent=True)] discards, and in [/download] the failures of
    removing the scratch directory. *)
Theorem engine_errors_reported : forall env rq fs,
  (forall url st1 e,
     request_url rq {| st_fs := fs; st_raised := [] |} = (ROk url, st1) ->
     truthy url = true -> ydl_info env url = inl e ->
     fst (run (fetch_info env rq) fs) =
       Resp (json_error (u "Failed to extract info: " ++ exn_str e) 500)) /\
  (forall url fid d e o st,
     args_get (u "url") (rq_args rq) = Some url -> url <> [] ->
     args_get (u "format_id") (rq_args rq) = Some fid -> fid <> [] ->
     mkdtemp_name fs = Some d -> engine_fails env url e ->
     run (download env rq) fs = (o, st) ->
     o = Resp (json_error (u "Download failed: " ++ exn_str e) 500) /\
     ((forall fs', os_rmtree_fails env fs' d = false) -> path_isdir (st_fs st) d = false)) /\
  (forall o st e,
     run (fetch_info env rq) fs = (o, st) -> In e (st_raised st) ->
     surfaced o e = true \/ e = json_decode_error) /\
  (forall o st e,
     run (download env rq) fs = (o, st) -> In e (st_raised st) ->
     surfaced o e = true \/ (exists d, mkdtemp_name fs = Some d /\ removal_error d e = true)).
Proof.
  intros env rq fs. split; [| split; [| split]].
  - intros url st1 e Hu Ht He. unfold run.
    rewrite (fetch_info_engine_error env rq _ url st1 e Hu Ht He). reflexivity.
  - intros url fid d e o st Hurl Hu Hfid Hf Hd He H.
    exact (download_engine_error env rq fs url fid d e o st Hurl Hu Hfid Hf Hd He H).
  - intros o st e H He. unfold run in H.
    destruct (fetch_info env rq {| st_fs := fs; st_raised := [] |}) as [r st'] eqn:E.
    injection H as <- <-.
    destruct (fetch_info_raised _ _ _ _ _ E) as (L & HL & Hs).
    rewrite HL in He. exact (Hs e He).
  - intros o st e H He. exact (download_raised env rq fs o st e H He).
Qed.

Lemma engine_errors_reported_witness :
  fst (run (fetch_info failing_env url_request) fs0) =
    Resp (json_error (u "Failed to extract info: " ++ exn_str unreachable_error) 500) /\
  fst (run (download failing_env bestaudio_request) fs0) =
    Resp (json_error (u "Download failed: " ++ exn_str unreachable_error) 500) /\
  path_isdir (st_fs (snd (run (download failing_env bestaudio_request) fs0))) (u "/tmp/ydl_0")
    = false.
Proof.
  destruct (engine_errors_reported failing_env url_request fs0) as (Ha & _ & _ & _).
  destruct (engine_errors_reported failing_env bestaudio_request fs0) as (_ & Hb & _ & _).
  split.
  - refine (Ha (JStr (u "https://example.test/watch?v=abc"))
               (snd (request_url url_request {| st_fs := fs0; st_raised := [] |}))
               unreachable_error _ _ _); vm_compute; reflexivity.
  - destruct (run (download failing_env bestaudio_request) fs0) as [o st] eqn:E.
    destruct (Hb (u "https://example.test/watch?v=abc") (u "bestaudio") (u "/tmp/ydl_0")
                 unreachable_error o st) as [Ho Hg];
      [ vm_compute; reflexivity | discriminate | vm_compute; reflexivity | discriminate
      | vm_compute; reflexivity | intros opts fs1; reflexivity | reflexivity | ].
    split; [exact Ho | apply Hg; intros; reflexivity].
Defined.

Lemma engine_errors_reported_counterexample :
  status_of (fst (run (fetch_info sample_env malformed_request) fs0)) = 200 /\
  swallowed (fst (run (fetch_info sample_env malformed_request) fs0))
            (st_raised (snd (run (fetch_info sample_env malformed_request) fs0)))
    = [json_decode_error].
Proof. split; vm_compute; reflexivity. Qed.

(** ** Further properties of the handlers and their helpers *)

Lemma lstrip_by_split : forall p s, exists d, s = d ++ lstrip_by p s.
Proof.
  intros p s. induction s as [|c s [d Hd]]; simpl.
  - exists []. reflexivity.
  - destruct (p c).
    + exists (c :: d). simpl. rewrite <- Hd. reflexivity.
    + exists []. reflexivity.
Qed.

Lemma lstrip_by_head : forall p s,
  match lstrip_by p s with [] => True | c :: _ => p c = false end.
Proof.
  intros p s. induction s as [|c s IH]; simpl; [exact I |].
  destruct (p c) eqn:E; [exact IH | exact E].
Qed.

Lemma lstrip_by_fix : forall p s,
  match s with [] => True | c :: _ => p c = false end -> lstrip_by p s = s.
Proof. intros p [|c s] H; simpl; [reflexivity | rewrite H; reflexivity]. Qed.

Lemma head_of_app : forall (p : Z -> bool) (a b : py_string),
  match a ++ b with [] => True | c :: _ => p c = false end ->
  match a with [] => True | c :: _ => p c = false end.
Proof. intros p [|c a] b H; simpl in *; auto. Qed.

Lemma lstrip_by_idem : forall p s, lstrip_by p (lstrip_by p s) = lstrip_by p s.
Proof. intros p s. apply lstrip_by_fix, lstrip_by_head. Qed.

Lemma strip_by_prefix : forall p s, exists t, lstrip_by p s = strip_by p s ++ t.
Proof.
  intros p s. unfold strip_by.
  destruct (lstrip_by_split p (rev (lstrip_by p s))) as [d Hd].
  exists (rev d). apply (f_equal (@rev Z)) in Hd.
  rewrite rev_involutive, rev_app_distr in Hd. exact Hd.
Qed.

Lemma strip_by_head : forall p s,
  match strip_by p s with [] => True | c :: _ => p c = false end.
Proof.
  intros p s. destruct (strip_by_prefix p s) as [t Ht].
  apply (head_of_app p _ t). rewrite <- Ht. apply lstrip_by_head.
Qed.

Lemma strip_by_idem : forall p s, strip_by p (strip_by p s) = strip_by p s.
Proof.
  intros p s. unfold strip_by at 1.
  rewrite (lstrip_by_fix p (strip_by p s) (strip_by_head p s)).
  unfold strip_by. rewrite rev_involutive, lstrip_by_idem. reflexivity.
Qed.

Lemma In_firstn_In : forall {A} n (l : list A) x, In x (firstn n l) -> In x l.
Proof.
  intros A n l x H. rewrite <- (firstn_skipn n l). apply in_or_app. left. exact H.
Qed.

Lemma filter_all_true : forall {A} (f : A -> bool) l,
  (forall x, In x l -> f x = true) -> filter f l = l.
Proof.
  intros A f l H. induction l as [|x l IH]; simpl; [reflexivity |].
  rewrite (H x (or_introl eq_refl)), IH; [reflexivity |].
  intros y Hy. apply H. right. exact Hy.
Qed.

(** [clean_filename] never returns one of the characters its regex removes. *)
Theorem clean_filename_no_unsafe : forall s c,
  In c (clean_filename s) -> unsafe_char c = false.
Proof.
  intros s c H. unfold clean_filename in H.
  apply In_firstn_In, In_strip_by, filter_In in H as [_ H].
  destruct (unsafe_char c); [discriminate H | reflexivity].
Qed.

Lemma clean_filename_no_unsafe_witness :
  In 97 (clean_filename (u "a:b")) /\ unsafe_char 97 = false.
Proof.
  split; [vm_compute; left; reflexivity |].
  apply (clean_filename_no_unsafe (u "a:b")). vm_compute. left. reflexivity.
Defined.

(** [clean_filename] returns at most 200 code points. *)
Theorem clean_filename_length : forall s, (List.length (clean_filename s) <= 200)%nat.
Proof. intros s. unfold clean_filename. apply firstn_le_length. Qed.

(** [clean_filename] never returns a string beginning with whitespace. *)
Theorem clean_filename_no_leading_space : forall s,
  match clean_filename s with [] => True | c :: _ => is_space c = false end.
Proof.
  intros s. unfold clean_filename.
  pose proof (strip_by_head is_space (filter (fun c => negb (unsafe_char c)) s)) as H.
  destruct (strip_by is_space _) as [|c t]; simpl; [exact I | exact H].
Qed.

(** Cleaning twice is cleaning once, when the 200-code-point cut does not
    apply. *)
Theorem clean_filename_idempotent : forall s,
  (List.length (strip_by is_space (filter (fun c => negb (unsafe_char c)) s)) <= 200)%nat ->
  clean_filename (clean_filename s) = clean_filename s.
Proof.
  intros s Hlen. unfold clean_filename at 2 3. rewrite firstn_all2 by exact Hlen.
  unfold clean_filename.
  rewrite (filter_all_true _ (strip_by is_space _)).
  - rewrite strip_by_idem. apply firstn_all2. exact Hlen.
  - intros c Hc. apply In_strip_by, filter_In in Hc as [_ Hc]. exact Hc.
Qed.

Lemma clean_filename_idempotent_witness :
  clean_filename (clean_filename (u " a:b ")) = clean_filename (u " a:b ").
Proof. apply clean_filename_idempotent. vm_compute. lia. Defined.

(** The de-duplication loop returns distinct ids, none of them already seen. *)
Theorem dedup_ids_distinct : forall l seen,
  NoDup (map fo_id (dedup_ids seen l)) /\
  (forall f, In f (dedup_ids seen l) -> ~ In (fo_id f) seen).
Proof.
  induction l as [|f l IH]; intros seen; simpl.
  - split; [constructor | intros _ []].
  - destruct (str_in (fo_id f) seen) eqn:E; [apply IH |].
    destruct (IH (fo_id f :: seen)) as [Hnd Hout]. split.
    + simpl. constructor; [| exact Hnd].
      intros Hin. apply in_map_iff in Hin as (g & Hg & Hin).
      apply (Hout g Hin). left. symmetry. exact Hg.
    + intros g [<-|Hin].
      * intros Hs. apply str_in_In in Hs. rewrite Hs in E. discriminate E.
      * intros Hs. apply (Hout g Hin). right. exact Hs.
Qed.

Lemma dedup_ids_distinct_witness :
  NoDup (map fo_id (dedup_ids [] [audio_option; audio_option])).
Proof. exact (proj1 (dedup_ids_distinct [audio_option; audio_option] [])). Defined.

(** De-duplicating a concatenation is de-duplicating the first part, then
    the second part with the ids kept so far marked as seen. *)
Theorem dedup_ids_app : forall l1 l2 seen,
  dedup_ids seen (l1 ++ l2) =
  dedup_ids seen l1 ++ dedup_ids (rev (map fo_id (dedup_ids seen l1)) ++ seen) l2.
Proof.
  induction l1 as [|f l1 IH]; intros l2 seen; simpl; [reflexivity |].
  destruct (str_in (fo_id f) seen); [apply IH |].
  simpl. rewrite IH, <- app_assoc. reflexivity.
Qed.

(** On a list whose ids are distinct and unseen, the loop changes nothing. *)
Theorem dedup_ids_id : forall l seen,
  NoDup (map fo_id l) -> (forall f, In f l -> ~ In (fo_id f) seen) ->
  dedup_ids seen l = l.
Proof.
  induction l as [|f l IH]; intros seen Hnd Hs; simpl; [reflexivity |].
  inversion Hnd as [|x y Hx Hnd' Heq]; subst.
  destruct (str_in (fo_id f) seen) eqn:E.
  - apply str_in_In in E. exfalso. exact (Hs f (or_introl eq_refl) E).
  - f_equal. apply IH; [exact Hnd' |].
    intros g Hg [Heq|Hin].
    + apply Hx. rewrite Heq. apply in_map. exact Hg.
    + exact (Hs g (or_intror Hg) Hin).
Qed.

Lemma dedup_ids_id_witness : dedup_ids [] [audio_option] = [audio_option].
Proof.
  apply dedup_ids_id.
  - constructor; [intros [] | constructor].
  - intros f _ [].
Defined.

Lemma obj_lookup_nil : forall k, obj_lookup k [] = JNull.
Proof. reflexivity. Qed.

(** [/fetch_info] answers 400 without consulting yt-dlp and without touching
    the file system when neither a usable JSON body nor the query string
    gives a non-empty [url]. *)
Theorem fetch_info_missing_url : forall env rq fs,
  match rq_body rq with
  | BodyJson (JObj kv) => truthy (obj_lookup (u "url") kv) = false
  | BodyJson j => truthy j = false
  | _ => True
  end ->
  match args_get (u "url") (rq_args rq) with None => True | Some s => s = [] end ->
  fst (run (fetch_info env rq) fs) = Resp (json_error (u "Missing 'url' parameter") 400) /\
  st_fs (snd (run (fetch_info env rq) fs)) = fs.
Proof.
  intros env rq fs Hb Ha.
  assert (Hr : exists st1,
    request_url rq {| st_fs := fs; st_raised := [] |} =
      (ROk (match args_get (u "url") (rq_args rq) with Some s => JStr s | None => JNull end), st1)
    /\ st_fs st1 = fs).
  { unfold request_url, get_json_silent, dict_get, bind, ret, try_except, raise.
    destruct (rq_body rq) as [| |j]; [| | destruct j as [| | | | |kv]];
      cbn [truthy] in Hb |- *; try (match type of Hb with _ = _ => rewrite Hb end);
      try (destruct (negb (Nat.eqb (List.length kv) 0)));
      cbn -[u obj_lookup]; try (rewrite obj_lookup_nil);
      try (match type of Hb with _ = _ => rewrite Hb end); cbn -[u obj_lookup].
    all: eexists; split; reflexivity. }
  destruct Hr as (st1 & Hr & Hfs).
  assert (Hf : fetch_info env rq {| st_fs := fs; st_raised := [] |} =
                 (ROk (json_error (u "Missing 'url' parameter") 400), st1)).
  { unfold fetch_info, bind. rewrite Hr.
    destruct (args_get (u "url") (rq_args rq)) as [s|]; [subst s |]; reflexivity. }
  unfold run. rewrite Hf. split; [reflexivity | exact Hfs].
Qed.

Lemma fetch_info_missing_url_witness :
  fst (run (fetch_info sample_env {| rq_body := BodyJson (JObj [(u "url", JStr [])]);
                                      rq_args := [(u "url", [])] |}) fs0) =
    Resp (json_error (u "Missing 'url' parameter") 400).
Proof.
  exact (proj1 (fetch_info_missing_url sample_env
                  {| rq_body := BodyJson (JObj [(u "url", JStr [])]); rq_args := [(u "url", [])] |}
                  fs0 ltac:(vm_compute; reflexivity) ltac:(vm_compute; reflexivity))).
Defined.

Lemma fetch_info_same_url : forall env rq1 rq2 st1 st2 v fs l1 l2,
  request_url rq1 st1 = (ROk v, {| st_fs := fs; st_raised := l1 |}) ->
  request_url rq2 st2 = (ROk v, {| st_fs := fs; st_raised := l2 |}) ->
  fst (fetch_info env rq1 st1) = fst (fetch_info env rq2 st2) /\
  st_fs (snd (fetch_info env rq1 st1)) = st_fs (snd (fetch_info env rq2 st2)).
Proof.
  intros env rq1 rq2 st1 st2 v fs l1 l2 H1 H2.
  unfold fetch_info, bind, ret, try_except, lift_sum, raise, dict_get. rewrite H1, H2.
  destruct (negb (truthy v)); [split; reflexivity |].
  destruct (ydl_info env v) as [e|info]; [split; reflexivity |].
  destruct info; split; reflexivity.
Qed.

(** A JSON body that fails to decode, or that decodes to a falsy value
    (null, false, 0, an empty string, list or object), gets the same
    response from [/fetch_info] as no body at all, with the same effect on
    the file system. *)
Theorem fetch_info_ignored_body : forall env b args fs,
  match b with BodyJson j => truthy j = false | _ => True end ->
  fst (run (fetch_info env {| rq_body := b; rq_args := args |}) fs) =
    fst (run (fetch_info env {| rq_body := BodyNone; rq_args := args |}) fs) /\
  st_fs (snd (run (fetch_info env {| rq_body := b; rq_args := args |}) fs)) =
    st_fs (snd (run (fetch_info env {| rq_body := BodyNone; rq_args := args |}) fs)).
Proof.
  intros env b args fs Hb.
  set (v := match args_get (u "url") args with Some s => JStr s | None => JNull end).
  assert (H0 : request_url {| rq_body := BodyNone; rq_args := args |}
                 {| st_fs := fs; st_raised := [] |} = (ROk v, {| st_fs := fs; st_raised := [] |}))
    by reflexivity.
  assert (H1 : exists l, request_url {| rq_body := b; rq_args := args |}
                 {| st_fs := fs; st_raised := [] |} = (ROk v, {| st_fs := fs; st_raised := l |})).
  { unfold request_url, get_json_silent, dict_get, bind, ret, try_except, raise.
    destruct b as [| |j]; cbn [rq_body]; [eexists; reflexivity | eexists; reflexivity |].
    cbn [truthy] in Hb |- *. rewrite Hb. eexists; reflexivity. }
  destruct H1 as [l H1].
  destruct (fetch_info_same_url env _ _ _ _ v fs l [] H1 H0) as [Ho Hf].
  unfold run.
  destruct (fetch_info env {| rq_body := b; rq_args := args |} _) as [r1 s1].
  destruct (fetch_info env {| rq_body := BodyNone; rq_args := args |} _) as [r2 s2].
  split; [cbn in Ho |- *; rewrite Ho; reflexivity | exact Hf].
Qed.

Lemma fetch_info_ignored_body_witness :
  fst (run (fetch_info sample_env malformed_request) fs0) =
    fst (run (fetch_info sample_env {| rq_body := BodyNone;
                                        rq_args := rq_args malformed_request |}) fs0).
Proof. exact (proj1 (fetch_info_ignored_body sample_env BodyMalformed _ fs0 I)). Defined.

(** A non-empty ["url"] in a JSON object body takes precedence: the query
    string then has no influence on [/fetch_info]. *)
Theorem fetch_info_body_url_wins : forall env kv args1 args2 st,
  truthy (obj_lookup (u "url") kv) = true ->
  fetch_info env {| rq_body := BodyJson (JObj kv); rq_args := args1 |} st =
  fetch_info env {| rq_body := BodyJson (JObj kv); rq_args := args2 |} st.
Proof.
  intros env kv args1 args2 st H.
  assert (Hr : forall args, request_url {| rq_body := BodyJson (JObj kv); rq_args := args |} st =
                            (ROk (obj_lookup (u "url") kv), st)).
  { intros args. unfold request_url, get_json_silent, dict_get, bind, ret. cbn [rq_body].
    destruct kv as [|p kv]; [rewrite obj_lookup_nil in H; discriminate H |].
    cbn [truthy List.length Nat.eqb negb]. rewrite H. reflexivity. }
  unfold fetch_info, bind. rewrite !Hr. reflexivity.
Qed.

Lemma fetch_info_body_url_wins_witness :
  fetch_info sample_env {| rq_body := BodyJson (JObj [(u "url", JStr (u "a"))]);
                           rq_args := [] |} {| st_fs := fs0; st_raised := [] |} =
  fetch_info sample_env {| rq_body := BodyJson (JObj [(u "url", JStr (u "a"))]);
                           rq_args := [(u "url", u "b")] |} {| st_fs := fs0; st_raised := [] |}.
Proof. apply fetch_info_body_url_wins. vm_compute. reflexivity. Defined.

(** [/download] without a non-empty [url] or [format_id] answers 400
    without consulting yt-dlp, without creating a scratch directory and
    without raising anything. *)
Theorem download_missing_params : forall env rq fs,
  match args_get (u "url") (rq_args rq) with None => True | Some s => s = [] end \/
  match args_get (u "format_id") (rq_args rq) with None => True | Some s => s = [] end ->
  run (download env rq) fs =
    (Resp (json_error (u "Missing 'url' or 'format_id' query parameters") 400),
     {| st_fs := fs; st_raised := [] |}).
Proof.
  intros env rq fs H. unfold run, download.
  destruct (args_get (u "url") (rq_args rq)) as [url|]; [| reflexivity].
  destruct (args_get (u "format_id") (rq_args rq)) as [fid|]; [| reflexivity].
  destruct H as [->| ->]; [reflexivity |].
  rewrite orb_true_r. reflexivity.
Qed.

Lemma download_missing_params_witness :
  fst (run (download sample_env (get_request [(u "url", u "https://example.test/watch?v=abc");
                                              (u "format_id", [])])) fs0) =
    Resp (json_error (u "Missing 'url' or 'format_id' query parameters") 400).
Proof. rewrite download_missing_params; [reflexivity | right; reflexivity]. Defined.

Lemma rfind_aux_app : forall a b c i acc,
  rfind_aux (a ++ b) c i acc =
  rfind_aux b c (i + Z.of_nat (List.length a)) (rfind_aux a c i acc).
Proof.
  induction a as [|x a IH]; intros b c i acc; simpl.
  - rewrite Z.add_0_r. reflexivity.
  - rewrite IH. f_equal. lia.
Qed.

Lemma rfind_aux_notin : forall b c i acc, ~ In c b -> rfind_aux b c i acc = acc.
Proof.
  induction b as [|x b IH]; intros c i acc H; simpl; [reflexivity |].
  destruct (Z.eqb_spec x c) as [->|Hx]; [exfalso; apply H; left; reflexivity |].
  apply IH. intros Hin. apply H. right. exact Hin.
Qed.

Lemma rfind_aux_ge : forall b c i acc, acc < i -> acc <= rfind_aux b c i acc.
Proof.
  induction b as [|x b IH]; intros c i acc H; simpl; [lia |].
  destruct (x =? c).
  - specialize (IH c (i + 1) i ltac:(lia)). lia.
  - specialize (IH c (i + 1) acc ltac:(lia)). lia.
Qed.

Lemma splitext_root_same_dir : forall d n,
  ~ In 47 n -> exists n', ~ In 47 n' /\ splitext_root (d ++ [47] ++ n) = d ++ [47] ++ n'.
Proof.
  intros d n Hn. unfold splitext_root, rfind.
  assert (Hsep : rfind_aux (d ++ [47] ++ n) 47 0 (-1) = Z.of_nat (List.length d)).
  { rewrite rfind_aux_app, rfind_aux_app, rfind_aux_notin by exact Hn. simpl.
    lia. }
  rewrite Hsep.
  destruct (Z.of_nat (List.length d) <? rfind_aux (d ++ [47] ++ n) 46 0 (-1)) eqn:Hlt;
    [| exists n; split; [exact Hn | reflexivity]].
  destruct (existsb _ _); [| exists n; split; [exact Hn | reflexivity]].
  apply Z.ltb_lt in Hlt.
  set (k := Z.to_nat (rfind_aux (d ++ [47] ++ n) 46 0 (-1))).
  assert (Hk : (List.length d < k)%nat) by (unfold k; lia).
  exists (firstn (k - List.length d - 1) n). split.
  - intros Hin. apply Hn. exact (In_firstn_In _ _ _ Hin).
  - rewrite firstn_app, firstn_all2 by lia.
    f_equal. destruct (k - List.length d)%nat as [|m] eqn:E; [lia |].
    simpl. rewrite Nat.sub_0_r. reflexivity.
Qed.

(** The extension fix-up after [prepare_filename] keeps the file in the
    directory yt-dlp named: only the last path component changes. *)
Theorem expected_filename_same_dir : forall mp3 d n,
  ~ In 47 n ->
  exists n', ~ In 47 n' /\ expected_filename mp3 (d ++ [47] ++ n) = d ++ [47] ++ n'.
Proof.
  intros mp3 d n Hn. unfold expected_filename.
  destruct (splitext_root_same_dir d n Hn) as (n' & Hn' & Hs).
  assert (Hext : forall e, ~ In 47 (u e) ->
            exists m, ~ In 47 m /\ splitext_root (d ++ [47] ++ n) ++ u e = d ++ [47] ++ m).
  { intros e He. exists (n' ++ u e). split.
    - intros Hin. apply in_app_or in Hin as [Hin|Hin]; [exact (Hn' Hin) | exact (He Hin)].
    - rewrite Hs, <- !app_assoc. reflexivity. }
  destruct mp3.
  - apply Hext. intros Hin. simpl in Hin. repeat destruct Hin as [Hin|Hin]; try discriminate Hin;
      contradiction.
  - destruct (ends_with _ _); [exists n; split; [exact Hn | reflexivity] |].
    apply Hext. intros Hin. simpl in Hin. repeat destruct Hin as [Hin|Hin]; try discriminate Hin;
      contradiction.
Qed.

Lemma expected_filename_same_dir_witness :
  exists n', ~ In 47 n' /\
    expected_filename false (u "/tmp/ydl_0.d" ++ [47] ++ u "My Clip.webm") =
      u "/tmp/ydl_0.d" ++ [47] ++ n'.
Proof.
  apply expected_filename_same_dir. intros Hin. vm_compute in Hin.
  repeat destruct Hin as [Hin|Hin]; try discriminate Hin; contradiction.
Defined.









